(** * gce_metadata_server: the launcher [cmd/main.go]

    A shallow embedding of [main] (cmd/main.go) and the properties of its
    credential resolution, validation and lifecycle that the specification
    states.

    [main] is a straight-line program over external collaborators (the file
    system, the JSON decoder, the credential libraries, the TPM device, the
    metadata server, the signal channel).  The collaborators are gathered in
    a record [World] of oracles; [main] is written in a small monad [Proc]
    that records every log line and external call in a trace and stops at
    [os.Exit] or at a receive that never returns. *)

From Stdlib Require Import ZArith.
From stdpp Require Import base strings gmap list.

#[local] Set Warnings "-register-all".
Local Open Scope Z_scope.
Local Open Scope string_scope.

(** ** Go values *)

(** [[]byte] contents and [error] values (by their message). *)
Abbreviation bytes := string (only parsing).
Abbreviation error := string (only parsing).

(** A Go call returning [(T, error)]. *)
Inductive Result (T : Type) : Type :=
| Ok (t : T)
| Fail (err : error).
Arguments Ok {T} t.
Arguments Fail {T} err.

(** What [json.Unmarshal] stores in an [interface{}]: nil, bool, float64,
    string, []interface{} or map[string]interface{}.  The float64 payload is
    kept uninterpreted (its IEEE bits). *)
Inductive JSONValue : Type :=
| JNull
| JBool (b : bool)
| JNumber (bits : Z)
| JString (s : string)
| JArray (elems : list JSONValue)
| JObject (fields : list (string * JSONValue)).

(** [m[k]] on a [map[string]interface{}]: a missing key yields the zero
    value, the nil interface. *)
Definition map_index (m : gmap string JSONValue) (k : string) : JSONValue :=
  match m !! k with
  | Some v => v
  | None => JNull
  end.

(** [v != s] for [v] an [interface{}] and [s] a [string]: the operands are
    equal only when the dynamic type of [v] is string and the values agree. *)
Definition iface_neq_string (v : JSONValue) (s : string) : bool :=
  match v with
  | JString t => negb (String.eqb t s)
  | _ => true
  end.

Inductive Signal : Type := SIGINT | SIGTERM.

(** [os.Interrupt] is [syscall.SIGINT]. *)
Definition Interrupt : Signal := SIGINT.

(** ** Library types *)

Module oauth2.
(** An [oauth2.TokenSource], by reference. *)
Inductive TokenSource : Type := TokenSourceRef (n : nat).
End oauth2.

Module google.
(** [google.Credentials]: the fields [main] reads or writes. *)
Record Credentials : Type := {
  ProjectID : string;
  TokenSource : option oauth2.TokenSource;
  JSON : bytes
}.
End google.

Module tpm2.
(** The [io.ReadWriteCloser] returned by [tpm2.OpenTPM]. *)
Inductive ReadWriteCloser : Type := Device (n : nat).
End tpm2.

Module mds.
(** Modelled from the spec: the declaration of [mds.Claims] is not under
    src/; its shape is the one section 3 of the specification gives
    (project id, service accounts by name with email and scopes), along
    the field path [main] uses: [ComputeMetadata.V1.Instance.ServiceAccounts]
    and [ComputeMetadata.V1.Project.ProjectID]. *)
Record ServiceAccountDetails : Type := {
  Email : string;
  Scopes : list string
}.
Record InstanceT : Type := {
  ServiceAccounts : gmap string ServiceAccountDetails
}.
Record ProjectT : Type := {
  ProjectID : string
}.
Record V1T : Type := {
  Instance_ : InstanceT;
  Project : ProjectT
}.
Record ComputeMetadataT : Type := {
  V1 : V1T
}.
Record Claims : Type := {
  ComputeMetadata : ComputeMetadataT
}.

(** [mds.ServerConfig], with the fields [main] fills in (lines 142-151). *)
Record ServerConfig : Type := {
  BindInterface : string;
  Port : string;
  Impersonate : bool;
  Federate : bool;
  DomainSocket : string;
  UseTPM : bool;
  TPMPath : string;
  PersistentHandle : Z
}.

(** Modelled from the spec: [mds.MetadataServer] is not under src/.  The
    specification (section 8) speaks of the handle's observable bind
    settings; the handle is a reference together with the settings it
    shows. *)
Record MetadataServer : Type := {
  handle : nat;
  settings : ServerConfig
}.
End mds.

(** [claims.ComputeMetadata.V1.Instance.ServiceAccounts] *)
Definition serviceAccounts (claims : mds.Claims) : gmap string mds.ServiceAccountDetails :=
  mds.ServiceAccounts (mds.Instance_ (mds.V1 (mds.ComputeMetadata claims))).

(** [claims.ComputeMetadata.V1.Project.ProjectID] *)
Definition claimedProjectID (claims : mds.Claims) : string :=
  mds.ProjectID (mds.Project (mds.V1 (mds.ComputeMetadata claims))).

(** [m[k]] on a [map[string]ServiceAccountDetails]: a missing key yields the
    zero struct. *)
Definition sa_index (m : gmap string mds.ServiceAccountDetails) (k : string)
  : mds.ServiceAccountDetails :=
  match m !! k with
  | Some sa => sa
  | None => {| mds.Email := ""; mds.Scopes := [] |}
  end.

(** ** Command line flags (lines 18-29) *)

Record Flags : Type := {
  bindInterface : string;
  port : string;
  useDomainSocket : string;
  serviceAccountFile : string;
  configFile : string;
  useImpersonate : bool;
  useFederate : bool;
  useTPM : bool;
  tpmPath : string;
  persistentHandle : Z
}.

(** The defaults declared with the flags; 0x81008000 = 2164293632. *)
Definition defaultFlags : Flags := {|
  bindInterface := "127.0.0.1";
  port := ":8080";
  useDomainSocket := "";
  serviceAccountFile := "";
  configFile := "config.json";
  useImpersonate := false;
  useFederate := false;
  useTPM := false;
  tpmPath := "/dev/tpm0";
  persistentHandle := 2164293632
|}.

(** ** The outside world *)

(** The results of the external calls [main] makes.  Each oracle is a
    function of the call's arguments.  A call that returns [(T, error)]
    returns a usable value exactly when its error is nil, as the libraries
    do. *)
Record World : Type := {
  os_ReadFile : string -> Result bytes;
  json_Unmarshal_Claims : bytes -> Result mds.Claims;
  impersonate_CredentialsTokenSource :
    string -> list string -> Result oauth2.TokenSource;
  os_Getenv : string -> string;
  google_FindDefaultCredentials : list string -> Result google.Credentials;
  tpm2_OpenTPM : string -> Result tpm2.ReadWriteCloser;
  rwc_Close : tpm2.ReadWriteCloser -> option error;
  google_CredentialsFromJSON :
    bytes -> list string -> Result google.Credentials;
  json_Unmarshal_map : bytes -> Result (gmap string JSONValue);
  mds_NewMetadataServer :
    mds.ServerConfig -> option google.Credentials -> mds.Claims ->
    Result mds.MetadataServer;
  f_Start : mds.MetadataServer -> option error;
  (** the signal delivered on [done], if one ever is *)
  done_signal : option Signal;
  f_Shutdown : mds.MetadataServer -> option error
}.

(** ** Traces *)

Inductive Severity : Type := INFO | WARNING | ERROR.

(** An argument of a log call. *)
Inductive LogArg : Type :=
| AStr (s : string)
| AErr (err : error)
| AIface (v : JSONValue).

(** An external call with its arguments. *)
Inductive ExtCall : Type :=
| ReadFile (name : string)
| UnmarshalClaims (data : bytes)
| CredentialsTokenSource (targetPrincipal : string) (scopes : list string)
| Getenv (key : string)
| FindDefaultCredentials (scopes : list string)
| OpenTPM (path : string)
| Close (rwc : tpm2.ReadWriteCloser)
| CredentialsFromJSON (data : bytes) (scopes : list string)
| UnmarshalMap (data : bytes)
| NewMetadataServer (cfg : mds.ServerConfig) (creds : option google.Credentials)
    (claims : mds.Claims)
| Notify (sigs : list Signal)
| Start (f : mds.MetadataServer)
| Shutdown (f : mds.MetadataServer).

Inductive Event : Type :=
| Log (sev : Severity) (format : string) (args : list LogArg)
  (** the call returned; [ok] tells whether its error result was nil *)
| Call (c : ExtCall) (ok : bool)
  (** [<-done] returned the signal *)
| Received (s : Signal).

(** How the process ends: [os.Exit(code)] (or a return from [main], code 0),
    or never, blocked on the receive. *)
Inductive Outcome : Type :=
| Exited (code : Z)
| Blocked.

(** ** The monad of [main] *)

Inductive Step (A : Type) : Type :=
| Continue (a : A)
| Stop (o : Outcome).
Arguments Continue {A} a.
Arguments Stop {A} o.

Definition Proc (A : Type) : Type := (list Event * Step A)%type.

Definition Proc_ret {A} (a : A) : Proc A := ([], Continue a).

Definition Proc_bind {A B} (k : A -> Proc B) (m : Proc A) : Proc B :=
  match m with
  | (t, Continue a) => let (t', r) := k a in ((t ++ t')%list, r)
  | (t, Stop o) => (t, Stop o)
  end.

#[global] Instance Proc_mret : MRet Proc := @Proc_ret.
#[global] Instance Proc_mbind : MBind Proc := @Proc_bind.

Definition emit (e : Event) : Proc unit := ([e], Continue tt).

Definition is_ok {T} (r : Result T) : bool :=
  match r with Ok _ => true | Fail _ => false end.

Definition is_nil (e : option error) : bool :=
  match e with None => true | Some _ => false end.

(** A call returning [(T, error)], recorded in the trace. *)
Definition call {T} (c : ExtCall) (r : Result T) : Proc (Result T) :=
  ([Call c (is_ok r)], Continue r).

(** A call returning [error], recorded in the trace. *)
Definition call_err (c : ExtCall) (r : option error) : Proc (option error) :=
  ([Call c (is_nil r)], Continue r).

(** A call that cannot fail. *)
Definition call_val {T} (c : ExtCall) (v : T) : Proc T :=
  ([Call c true], Continue v).

Definition os_Exit {A} (code : Z) : Proc A := ([], Stop (Exited code)).

Definition glog_Infof (format : string) (args : list LogArg) : Proc unit :=
  emit (Log INFO format args).
Definition glog_Infoln (msg : string) : Proc unit :=
  emit (Log INFO msg []).
Definition glog_Warningf (format : string) (args : list LogArg) : Proc unit :=
  emit (Log WARNING format args).
Definition glog_Errorf (format : string) (args : list LogArg) : Proc unit :=
  emit (Log ERROR format args).
Definition glog_Error (msg : string) : Proc unit :=
  emit (Log ERROR msg []).

(** [<-done]: returns the signal when one is delivered, blocks otherwise. *)
Definition recv_done (w : World) : Proc Signal :=
  match done_signal w with
  | Some s => ([Received s], Continue s)
  | None => ([], Stop Blocked)
  end.

(** ** [main] *)

Section Main.
Variable fl : Flags.
Variable w : World.

(** Lines 37-57: read and parse the config file, check the default
    service account. *)
Definition loadClaims : Proc mds.Claims :=
  glog_Infof "Starting GCP metadataserver" [] ;;
  r ← call (ReadFile (configFile fl)) (os_ReadFile w (configFile fl));
  match r with
  | Fail err =>
      glog_Errorf "Error reading config data file: %v\n" [AErr err] ;;
      os_Exit (-1)
  | Ok configData =>
      r ← call (UnmarshalClaims configData) (json_Unmarshal_Claims w configData);
      match r with
      | Fail err =>
          glog_Errorf "Error parsing json: %v\n" [AErr err] ;;
          os_Exit (-1)
      | Ok claims =>
          match serviceAccounts claims !! "default" with
          | None =>
              glog_Errorf "default service account must be set" [] ;;
              os_Exit (-1)
          | Some _ => mret claims
          end
      end
  end.

Section Resolve.
Variable claims : mds.Claims.

(** [claims.ComputeMetadata.V1.Instance.ServiceAccounts["default"]] *)
Definition default_sa : mds.ServiceAccountDetails :=
  sa_index (serviceAccounts claims) "default".

(** Lines 59-73. *)
Definition useImpersonate_branch : Proc (option google.Credentials) :=
  glog_Infoln "Using Service Account Impersonation" ;;
  r ← call (CredentialsTokenSource (mds.Email default_sa) (mds.Scopes default_sa))
        (impersonate_CredentialsTokenSource w
           (mds.Email default_sa) (mds.Scopes default_sa));
  match r with
  | Fail err =>
      glog_Errorf "Unable to create Impersonated TokenSource %v " [AErr err] ;;
      os_Exit 1
  | Ok ts =>
      mret (Some {| google.ProjectID := "";
                    google.TokenSource := Some ts;
                    google.JSON := "" |})
  end.

(** Lines 74-88. *)
Definition useFederate_branch : Proc (option google.Credentials) :=
  glog_Infoln "Using Workload Identity Federation" ;;
  e ← call_val (Getenv "GOOGLE_APPLICATION_CREDENTIALS")
        (os_Getenv w "GOOGLE_APPLICATION_CREDENTIALS");
  if String.eqb e "" then
    glog_Error "GOOGLE_APPLICATION_CREDENTIAL must be set with --federate" ;;
    os_Exit 1
  else
    e ← call_val (Getenv "GOOGLE_APPLICATION_CREDENTIALS")
          (os_Getenv w "GOOGLE_APPLICATION_CREDENTIALS");
    glog_Infof "Federation path: %s" [AStr e] ;;
    r ← call (FindDefaultCredentials (mds.Scopes default_sa))
          (google_FindDefaultCredentials w (mds.Scopes default_sa));
    match r with
    | Fail err =>
        glog_Errorf "Unable load federated credentials %v" [AErr err] ;;
        os_Exit 1
    | Ok creds => mret (Some creds)
    end.

(** Lines 89-106.  [creds] is not assigned: it keeps its nil value. *)
Definition useTPM_branch : Proc (option google.Credentials) :=
  glog_Infoln "Using TPM based token handle" ;;
  if (persistentHandle fl =? 0)%Z then
    glog_Error "persistent handle must be specified" ;;
    os_Exit 1
  else
    r ← call (OpenTPM (tpmPath fl)) (tpm2_OpenTPM w (tpmPath fl));
    match r with
    | Fail err =>
        glog_Errorf "can't open TPM %s: %v" [AStr (tpmPath fl); AErr err] ;;
        os_Exit 1
    | Ok rwc =>
        r ← call_err (Close rwc) (rwc_Close w rwc);
        match r with
        | Some err =>
            glog_Errorf "can't close TPM %s: %v" [AStr (tpmPath fl); AErr err] ;;
            os_Exit 1
        | None => mret None
        end
    end.

(** Lines 107-140. *)
Definition serviceAccountFile_branch : Proc (option google.Credentials) :=
  glog_Infoln "Using serviceAccountFile for credentials" ;;
  r ← call (ReadFile (serviceAccountFile fl)) (os_ReadFile w (serviceAccountFile fl));
  match r with
  | Fail err =>
      glog_Errorf "Unable to read serviceAccountFile %v" [AErr err] ;;
      os_Exit 1
  | Ok data =>
      r ← call (CredentialsFromJSON data (mds.Scopes default_sa))
            (google_CredentialsFromJSON w data (mds.Scopes default_sa));
      match r with
      | Fail err =>
          glog_Errorf "Unable to parse serviceAccountFile %v " [AErr err] ;;
          os_Exit 1
      | Ok creds =>
          (if negb (String.eqb (google.ProjectID creds) (claimedProjectID claims)) then
             glog_Warningf
               "Warning: ProjectID in config file [%s] does not match project from credentials [%s]"
               [AStr (claimedProjectID claims); AStr (google.ProjectID creds)]
           else mret tt) ;;
          r ← call (UnmarshalMap (google.JSON creds))
                (json_Unmarshal_map w (google.JSON creds));
          match r with
          | Fail err =>
              glog_Errorf "Unable to parse serviceAccountFile as json %v " [AErr err] ;;
              os_Exit 1
          | Ok credJsonMap =>
              let credFileEmail := map_index credJsonMap "client_email" in
              (if iface_neq_string credFileEmail (mds.Email default_sa) then
                 glog_Warningf
                   "Warning: service account email in config file [%s] does not match project from credentials [%s]"
                   [AStr (mds.Email default_sa); AIface credFileEmail]
               else mret tt) ;;
              mret (Some creds)
          end
      end
  end.

(** Lines 59-140: the chain of [if]/[else if] over the strategy flags. *)
Definition resolve : Proc (option google.Credentials) :=
  if useImpersonate fl then useImpersonate_branch
  else if useFederate fl then useFederate_branch
  else if useTPM fl then useTPM_branch
  else serviceAccountFile_branch.

(** Lines 142-151. *)
Definition serverConfig : mds.ServerConfig := {|
  mds.BindInterface := bindInterface fl;
  mds.Port := port fl;
  mds.Impersonate := useImpersonate fl;
  mds.Federate := useFederate fl;
  mds.DomainSocket := useDomainSocket fl;
  mds.UseTPM := useTPM fl;
  mds.TPMPath := tpmPath fl;
  mds.PersistentHandle := persistentHandle fl
|}.

(** Lines 153-172. *)
Definition serve (creds : option google.Credentials) : Proc unit :=
  r ← call (NewMetadataServer serverConfig creds claims)
        (mds_NewMetadataServer w serverConfig creds claims);
  match r with
  | Fail err =>
      glog_Errorf "Error creating metadata server %v\n" [AErr err] ;;
      os_Exit 1
  | Ok f =>
      call_val (Notify [Interrupt; SIGINT; SIGTERM]) tt ;;
      r ← call_err (Start f) (f_Start w f);
      match r with
      | Some err =>
          glog_Errorf "Error starting %v\n" [AErr err] ;;
          os_Exit 1
      | None =>
          recv_done w ;;
          r ← call_err (Shutdown f) (f_Shutdown w f);
          match r with
          | Some err =>
              glog_Errorf "Error stopping %v\n" [AErr err] ;;
              os_Exit 1
          | None => mret tt
          end
      end
  end.
End Resolve.

(** [func main()] *)
Definition main : Proc unit :=
  claims ← loadClaims;
  creds ← resolve claims;
  serve claims creds.

(** The run of the process: its trace and how it ends.  A return from
    [main] ends the process with code 0. *)
Definition trace : list Event := fst main.

Definition outcome : Outcome :=
  match snd main with
  | Continue _ => Exited 0
  | Stop o => o
  end.
End Main.

(** ** Sample runs *)

Module Sample.
(** The identity of the specification's scenarios (section 8). *)
Definition sa : mds.ServiceAccountDetails :=
  {| mds.Email := "svc@proj.iam"; mds.Scopes := ["scope-a"] |}.

Definition claimsOf (accounts : gmap string mds.ServiceAccountDetails) : mds.Claims :=
  {| mds.ComputeMetadata :=
       {| mds.V1 :=
            {| mds.Instance_ := {| mds.ServiceAccounts := accounts |};
               mds.Project := {| mds.ProjectID := "proj" |} |} |} |}.

Definition claims : mds.Claims := claimsOf {[ "default" := sa ]}.

Definition keyCreds : google.Credentials :=
  {| google.ProjectID := "proj";
     google.TokenSource := Some (oauth2.TokenSourceRef 1);
     google.JSON := "key.json bytes" |}.

Definition adcCreds : google.Credentials :=
  {| google.ProjectID := "";
     google.TokenSource := Some (oauth2.TokenSourceRef 2);
     google.JSON := "adc.json bytes" |}.

Definition keyMap (email : string) : gmap string JSONValue :=
  {[ "client_email" := JString email; "project_id" := JString "proj" ]}.

Definition server (cfg : mds.ServerConfig) : mds.MetadataServer :=
  {| mds.handle := 7; mds.settings := cfg |}.

Definition files (name : string) : Result bytes :=
  if String.eqb name "config.json" then Ok "config.json bytes"
  else if String.eqb name "key.json" then Ok "key.json bytes"
  else Fail "no such file or directory".

(** A world in which every collaborator succeeds and SIGTERM arrives, but
    for the parts given as arguments: the file system, the service
    accounts of the parsed config, the ambient-credential variable, the
    decoded key file and the result of [Start]. *)
Definition worldWith (readFile : string -> Result bytes)
    (accounts : gmap string mds.ServiceAccountDetails) (env : string)
    (credJsonMap : gmap string JSONValue) (start : option error) : World := {|
  os_ReadFile := readFile;
  json_Unmarshal_Claims _ := Ok (claimsOf accounts);
  impersonate_CredentialsTokenSource _ _ := Ok (oauth2.TokenSourceRef 3);
  os_Getenv _ := env;
  google_FindDefaultCredentials _ := Ok adcCreds;
  tpm2_OpenTPM _ := Ok (tpm2.Device 0);
  rwc_Close _ := None;
  google_CredentialsFromJSON _ _ := Ok keyCreds;
  json_Unmarshal_map _ := Ok credJsonMap;
  mds_NewMetadataServer cfg _ _ := Ok (server cfg);
  f_Start _ := start;
  done_signal := Some SIGTERM;
  f_Shutdown _ := None
|}.

Definition world : World :=
  worldWith files {[ "default" := sa ]} "adc.json" (keyMap "svc@proj.iam") None.

Definition withFlags (imp fed tpm : bool) (h : Z) : Flags := {|
  bindInterface := "127.0.0.1";
  port := ":8080";
  useDomainSocket := "";
  serviceAccountFile := "key.json";
  configFile := "config.json";
  useImpersonate := imp;
  useFederate := fed;
  useTPM := tpm;
  tpmPath := "/dev/tpm0";
  persistentHandle := h
|}.

Definition fileFlags : Flags := withFlags false false false 2164293632.
Definition federateFlags : Flags := withFlags false true false 2164293632.
Definition tpmFlags : Flags := withFlags false false true 2164293632.
Definition tpmZeroFlags : Flags := withFlags false false true 0.

Definition accounts : gmap string mds.ServiceAccountDetails :=
  {[ "default" := sa ]}.



(** GOOGLE_APPLICATION_CREDENTIALS is unset. *)
Definition noEnvWorld : World :=
  worldWith files accounts "" (keyMap "svc@proj.iam") None.

(** The config declares no service account. *)
Definition noDefaultWorld : World :=
  worldWith files ∅ "adc.json" (keyMap "svc@proj.iam") None.

(** The key file names another service account. *)
Definition otherEmailWorld : World :=
  worldWith files accounts "adc.json" (keyMap "other@proj.iam") None.

(** The key file has no client_email. *)
Definition noEmailWorld : World :=
  worldWith files accounts "adc.json" {[ "project_id" := JString "proj" ]} None.
End Sample.

(** ** Reading traces *)

(** The four acquisition strategies of the specification. *)
Inductive Strategy : Type :=
| Impersonation
| Federation
| TPM
| ServiceAccountFile.

(** The error kinds the specification names (sections 4.1 and 7), extended
    with one kind for each remaining fatal site of [main]. *)
Inductive ErrorKind : Type :=
| ConfigUnreadable
| ConfigParseFailed
| MissingDefaultServiceAccount
| ImpersonationSetupFailed
| MissingAmbientCredentialConfig
| AmbientCredentialDiscoveryFailed
| InvalidPersistentHandle
| DeviceOpenFailed
| DeviceCloseFailed
| FileUnreadable
| FileParseFailed
| DescriptorParseFailed
| CreateFailed
| StartFailed
| ShutdownFailed.

(** Each fatal site of [main] logs one error message of its own; the table
    names the sites by their message. *)
Definition error_messages : list (string * ErrorKind) := [
  ("Error reading config data file: %v\n", ConfigUnreadable);
  ("Error parsing json: %v\n", ConfigParseFailed);
  ("default service account must be set", MissingDefaultServiceAccount);
  ("Unable to create Impersonated TokenSource %v ", ImpersonationSetupFailed);
  ("GOOGLE_APPLICATION_CREDENTIAL must be set with --federate",
   MissingAmbientCredentialConfig);
  ("Unable load federated credentials %v", AmbientCredentialDiscoveryFailed);
  ("persistent handle must be specified", InvalidPersistentHandle);
  ("can't open TPM %s: %v", DeviceOpenFailed);
  ("can't close TPM %s: %v", DeviceCloseFailed);
  ("Unable to read serviceAccountFile %v", FileUnreadable);
  ("Unable to parse serviceAccountFile %v ", FileParseFailed);
  ("Unable to parse serviceAccountFile as json %v ", DescriptorParseFailed);
  ("Error creating metadata server %v\n", CreateFailed);
  ("Error starting %v\n", StartFailed);
  ("Error stopping %v\n", ShutdownFailed)
].

Fixpoint assoc {V} (k : string) (l : list (string * V)) : option V :=
  match l with
  | [] => None
  | (k', v) :: l' => if String.eqb k k' then Some v else assoc k l'
  end.

Definition error_kind (format : string) : option ErrorKind :=
  assoc format error_messages.

#[global] Instance ErrorKind_eq_dec : EqDecision ErrorKind.
Proof. solve_decision. Defined.

(** The error the run ended on: the kind of the last event, when that is an
    error line. *)
Definition fatal_kind (t : list Event) : option ErrorKind :=
  match last t with
  | Some (Log ERROR format _) => error_kind format
  | _ => None
  end.

(** The line each branch logs on entry (lines 60, 75, 90, 109). *)
Definition announcement_messages : list (string * Strategy) := [
  ("Using Service Account Impersonation", Impersonation);
  ("Using Workload Identity Federation", Federation);
  ("Using TPM based token handle", TPM);
  ("Using serviceAccountFile for credentials", ServiceAccountFile)
].

(** The strategy an event belongs to: the entry line of a branch, or a call
    that only one branch makes.  ([os.ReadFile] is shared with the config
    stage and belongs to none.) *)
Definition event_strategy (e : Event) : option Strategy :=
  match e with
  | Log INFO format _ => assoc format announcement_messages
  | Call (CredentialsTokenSource _ _) _ => Some Impersonation
  | Call (Getenv _) _ => Some Federation
  | Call (FindDefaultCredentials _) _ => Some Federation
  | Call (OpenTPM _) _ => Some TPM
  | Call (Close _) _ => Some TPM
  | Call (CredentialsFromJSON _ _) _ => Some ServiceAccountFile
  | Call (UnmarshalMap _) _ => Some ServiceAccountFile
  | _ => None
  end.

(** The strategies announced, in order. *)
Definition announcements (t : list Event) : list Strategy :=
  omap (fun e => match e with
                 | Log INFO format _ => assoc format announcement_messages
                 | _ => None
                 end) t.

(** The arguments of the calls of [mds.NewMetadataServer], in order. *)
Definition create_calls (t : list Event)
  : list (mds.ServerConfig * option google.Credentials * mds.Claims) :=
  omap (fun e => match e with
                 | Call (NewMetadataServer cfg creds claims) _ =>
                     Some (cfg, creds, claims)
                 | _ => None
                 end) t.

Definition is_Shutdown (e : Event) : bool :=
  match e with Call (Shutdown _) _ => true | _ => false end.

(** The warnings logged, by format, in order. *)
Definition warnings (t : list Event) : list string :=
  omap (fun e => match e with
                 | Log WARNING format _ => Some format
                 | _ => None
                 end) t.

Definition projectID_warning : string :=
  "Warning: ProjectID in config file [%s] does not match project from credentials [%s]".

Definition email_warning : string :=
  "Warning: service account email in config file [%s] does not match project from credentials [%s]".

(** ** The specification's notions *)

(** The priority order of the specification (section 4.1): the first active
    flag among Impersonation, Federation, TPM; ServiceAccountFile when none
    is. *)
Definition strategy_flags (fl : Flags) : list (Strategy * bool) :=
  [ (Impersonation, useImpersonate fl);
    (Federation, useFederate fl);
    (TPM, useTPM fl) ].

Fixpoint first_active (l : list (Strategy * bool)) : Strategy :=
  match l with
  | [] => ServiceAccountFile
  | (s, true) :: _ => s
  | (_, false) :: l' => first_active l'
  end.

Definition selected_strategy (fl : Flags) : Strategy :=
  first_active (strategy_flags fl).

(** The branch of [main] that carries out a strategy. *)
Definition branch (s : Strategy) (fl : Flags) (w : World) (claims : mds.Claims)
  : Proc (option google.Credentials) :=
  match s with
  | Impersonation => useImpersonate_branch w claims
  | Federation => useFederate_branch w claims
  | TPM => useTPM_branch fl w
  | ServiceAccountFile => serviceAccountFile_branch fl w claims
  end.

(** The preconditions of a strategy (section 4.1, table), read on the world:
    the settings the branch checks are valid and the collaborators the
    branch calls answer without error. *)
Definition preconditions_hold (s : Strategy) (fl : Flags) (w : World)
    (claims : mds.Claims) : bool :=
  let scopes := mds.Scopes (default_sa claims) in
  match s with
  | Impersonation =>
      is_ok (impersonate_CredentialsTokenSource w
               (mds.Email (default_sa claims)) scopes)
  | Federation =>
      negb (String.eqb (os_Getenv w "GOOGLE_APPLICATION_CREDENTIALS") "")
      && is_ok (google_FindDefaultCredentials w scopes)
  | TPM =>
      negb (persistentHandle fl =? 0)%Z
      && match tpm2_OpenTPM w (tpmPath fl) with
         | Ok rwc => is_nil (rwc_Close w rwc)
         | Fail _ => false
         end
  | ServiceAccountFile =>
      match os_ReadFile w (serviceAccountFile fl) with
      | Ok data =>
          match google_CredentialsFromJSON w data scopes with
          | Ok creds => is_ok (json_Unmarshal_map w (google.JSON creds))
          | Fail _ => false
          end
      | Fail _ => false
      end
  end.

(** The exit code of each fatal site: [os.Exit(-1)] in the config stage
    (lines 42, 49, 56), [os.Exit(1)] everywhere else. *)
Definition exit_code_of (k : ErrorKind) : Z :=
  match k with
  | ConfigUnreadable | ConfigParseFailed | MissingDefaultServiceAccount => -1
  | _ => 1
  end.





Definition is_error_line (e : Event) : bool :=
  match e with Log ERROR _ _ => true | _ => false end.

Definition is_Start_ok (e : Event) : bool :=
  match e with Call (Start _) true => true | _ => false end.

Definition is_Received (e : Event) : bool :=
  match e with Received _ => true | _ => false end.

(** The events after the first one that satisfies [p]. *)
Fixpoint after_first (p : Event -> bool) (t : list Event) : list Event :=
  match t with
  | [] => []
  | e :: t' => if p e then t' else after_first p t'
  end.

(** The events before the first one that satisfies [p]. *)
Fixpoint before_first (p : Event -> bool) (t : list Event) : list Event :=
  match t with
  | [] => []
  | e :: t' => if p e then [] else e :: before_first p t'
  end.

Definition is_OpenTPM (e : Event) : bool :=
  match e with Call (OpenTPM _) _ => true | _ => false end.

Definition is_FindDefaultCredentials (e : Event) : bool :=
  match e with Call (FindDefaultCredentials _) _ => true | _ => false end.

Definition is_Start (e : Event) : bool :=
  match e with Call (Start _) _ => true | _ => false end.

(** The event is the error line of the fatal site [k]. *)
Definition logs_kind (k : ErrorKind) (e : Event) : bool :=
  match e with
  | Log ERROR format _ =>
      match error_kind format with
      | Some k' => bool_decide (k' = k)
      | None => false
      end
  | _ => false
  end.

(** The handles on which [Start] was called, in order. *)
Definition started_handles (t : list Event) : list mds.MetadataServer :=
  omap (fun e => match e with
                 | Call (Start f) _ => Some f
                 | _ => None
                 end) t.

(** The ServerConfig carries the eight settings of the flags. *)
Definition carries_flags (cfg : mds.ServerConfig) (fl : Flags) : Prop :=
  mds.BindInterface cfg = bindInterface fl /\
  mds.Port cfg = port fl /\
  mds.DomainSocket cfg = useDomainSocket fl /\
  mds.Impersonate cfg = useImpersonate fl /\
  mds.Federate cfg = useFederate fl /\
  mds.UseTPM cfg = useTPM fl /\
  mds.TPMPath cfg = tpmPath fl /\
  mds.PersistentHandle cfg = persistentHandle fl.

(** [shutdown()] was invoked. *)
Definition shutdown_invoked (t : list Event) : bool := existsb is_Shutdown t.


(** Modelled from the spec: [mds.NewMetadataServer] is not under src/.  The
    contract the specification gives it (section 8, round trip): the handle
    it returns shows the bind settings of the ServerConfig it was given. *)
Definition create_keeps_settings (w : World) : Prop :=
  forall cfg creds claims f,
    mds_NewMetadataServer w cfg creds claims = Ok f -> mds.settings f = cfg.

(** The events of the config stage when it succeeds on [configData]. *)
Definition loaded_trace (fl : Flags) (configData : bytes) : list Event :=
  [ Log INFO "Starting GCP metadataserver" [];
    Call (ReadFile (configFile fl)) true;
    Call (UnmarshalClaims configData) true ].

(** ** Further readings of traces *)

(** The calls that returned an error, in order. *)
Definition failed_calls (t : list Event) : list ExtCall :=
  omap (fun e => match e with
                 | Call c false => Some c
                 | _ => None
                 end) t.

(** The call whose failure the fatal site [k] reports. *)
Definition blames (fl : Flags) (k : ErrorKind) (c : ExtCall) : Prop :=
  match k, c with
  | ConfigUnreadable, ReadFile name => name = configFile fl
  | ConfigParseFailed, UnmarshalClaims _ => True
  | ImpersonationSetupFailed, CredentialsTokenSource _ _ => True
  | AmbientCredentialDiscoveryFailed, FindDefaultCredentials _ => True
  | DeviceOpenFailed, OpenTPM path => path = tpmPath fl
  | DeviceCloseFailed, Close _ => True
  | FileUnreadable, ReadFile name => name = serviceAccountFile fl
  | FileParseFailed, CredentialsFromJSON _ _ => True
  | DescriptorParseFailed, UnmarshalMap _ => True
  | CreateFailed, NewMetadataServer _ _ _ => True
  | StartFailed, Start _ => True
  | ShutdownFailed, Shutdown _ => True
  | _, _ => False
  end.

(** The fatal sites that follow a test of [main] itself, not a failed call
    (lines 54, 77, 92). *)
Definition check_kind (k : ErrorKind) : Prop :=
  k = MissingDefaultServiceAccount \/
  k = MissingAmbientCredentialConfig \/
  k = InvalidPersistentHandle.


Definition is_Notify (e : Event) : bool :=
  match e with
  | Call (Notify [SIGINT; SIGINT; SIGTERM]) true => true
  | _ => false
  end.

Definition is_create_ok (e : Event) : bool :=
  match e with Call (NewMetadataServer _ _ _) true => true | _ => false end.

Definition is_create (e : Event) : bool :=
  match e with Call (NewMetadataServer _ _ _) _ => true | _ => false end.

Definition is_Close (e : Event) : bool :=
  match e with Call (Close _) _ => true | _ => false end.

(** The paths [tpm2.OpenTPM] was called on, in order. *)
Definition opened_paths (t : list Event) : list string :=
  omap (fun e => match e with
                 | Call (OpenTPM path) _ => Some path
                 | _ => None
                 end) t.

(** The devices the successful calls of [tpm2.OpenTPM] returned, in order. *)
Definition opened_devices (w : World) (t : list Event)
  : list tpm2.ReadWriteCloser :=
  omap (fun e => match e with
                 | Call (OpenTPM path) true =>
                     match tpm2_OpenTPM w path with
                     | Ok rwc => Some rwc
                     | Fail _ => None
                     end
                 | _ => None
                 end) t.

(** The devices [Close] was called on, in order. *)
Definition closed_devices (t : list Event) : list tpm2.ReadWriteCloser :=
  omap (fun e => match e with
                 | Call (Close rwc) _ => Some rwc
                 | _ => None
                 end) t.

(** The flags with another [-serviceAccountFile]. *)
Definition with_serviceAccountFile (fl : Flags) (name : string) : Flags := {|
  bindInterface := bindInterface fl;
  port := port fl;
  useDomainSocket := useDomainSocket fl;
  serviceAccountFile := name;
  configFile := configFile fl;
  useImpersonate := useImpersonate fl;
  useFederate := useFederate fl;
  useTPM := useTPM fl;
  tpmPath := tpmPath fl;
  persistentHandle := persistentHandle fl
|}.

(** What a branch hands to [create] when it returns, read on the world. *)
Definition resolved_by (s : Strategy) (fl : Flags) (w : World)
    (claims : mds.Claims) (creds : option google.Credentials) : Prop :=
  match s with
  | Impersonation =>
      exists ts,
        impersonate_CredentialsTokenSource w (mds.Email (default_sa claims))
          (mds.Scopes (default_sa claims)) = Ok ts /\
        creds = Some {| google.ProjectID := "";
                        google.TokenSource := Some ts;
                        google.JSON := "" |}
  | Federation =>
      exists c,
        google_FindDefaultCredentials w (mds.Scopes (default_sa claims)) = Ok c /\
        creds = Some c
  | TPM => creds = None
  | ServiceAccountFile =>
      exists data c,
        os_ReadFile w (serviceAccountFile fl) = Ok data /\
        google_CredentialsFromJSON w data (mds.Scopes (default_sa claims)) = Ok c /\
        creds = Some c
  end.

(** The strategy whose branch holds the fatal site [k] (lines 59-140);
    none for the sites of the config stage and of the lifecycle. *)
Definition kind_strategy (k : ErrorKind) : option Strategy :=
  match k with
  | ImpersonationSetupFailed => Some Impersonation
  | MissingAmbientCredentialConfig | AmbientCredentialDiscoveryFailed =>
      Some Federation
  | InvalidPersistentHandle | DeviceOpenFailed | DeviceCloseFailed => Some TPM
  | FileUnreadable | FileParseFailed | DescriptorParseFailed =>
      Some ServiceAccountFile
  | _ => None
  end.

(** The handles on which [Shutdown] was called, in order. *)
Definition shutdown_handles (t : list Event) : list mds.MetadataServer :=
  omap (fun e => match e with
                 | Call (Shutdown f) _ => Some f
                 | _ => None
                 end) t.

Module Failing.
(** As [Sample.world], but the second decoding of the key file fails. *)
Definition undecodableWorld : World := {|
  os_ReadFile := Sample.files;
  json_Unmarshal_Claims _ := Ok Sample.claims;
  impersonate_CredentialsTokenSource _ _ := Ok (oauth2.TokenSourceRef 3);
  os_Getenv _ := "adc.json";
  google_FindDefaultCredentials _ := Ok Sample.adcCreds;
  tpm2_OpenTPM _ := Ok (tpm2.Device 0);
  rwc_Close _ := None;
  google_CredentialsFromJSON _ _ := Ok Sample.keyCreds;
  json_Unmarshal_map _ := Fail "unexpected end of JSON input";
  mds_NewMetadataServer cfg _ _ := Ok (Sample.server cfg);
  f_Start _ := None;
  done_signal := Some SIGTERM;
  f_Shutdown _ := None
|}.
End Failing.

(** * Proofs *)

(** ** Tactics *)

Ltac unfold_proc :=
  unfold recv_done, call, call_err, call_val, glog_Infof, glog_Infoln,
    glog_Warningf, glog_Errorf, glog_Error, emit, os_Exit,
    mbind, mret, Proc_mbind, Proc_mret, Proc_bind, Proc_ret in *.

Ltac unfold_stages :=
  unfold loadClaims, resolve, useImpersonate_branch, useFederate_branch,
    useTPM_branch, serviceAccountFile_branch, serve in *.

(** Case analysis on a scrutinee that has no [match] inside: the oracles and
    tests of [main], outermost call first. *)
Ltac case_innermost :=
  match goal with
  | |- context [match ?x with _ => _ end] =>
      lazymatch x with
      | context [match _ with _ => _ end] => fail
      | _ => destruct x eqn:?
      end
  end.

Ltac run_cases := unfold_stages; unfold_proc; repeat (cbn; case_innermost); cbn.

(** ** The monad *)

Lemma bind_Continue {A B} (m : Proc A) (k : A -> Proc B) a :
  snd m = Continue a ->
  m ≫= k = ((fst m ++ fst (k a))%list, snd (k a)).
Proof.
  destruct m as [t r]; simpl; intros ->.
  unfold mbind, Proc_mbind, Proc_bind. by destruct (k a).
Qed.

Lemma bind_Stop {A B} (m : Proc A) (k : A -> Proc B) o :
  snd m = Stop o ->
  m ≫= k = (fst m, Stop o).
Proof. destruct m as [t r]; simpl; by intros ->. Qed.

(** ** The stages of [main] *)

Section Stages.
Variable fl : Flags.
Variable w : World.

Lemma loadClaims_Continue claims :
  snd (loadClaims fl w) = Continue claims ->
  exists configData,
    os_ReadFile w (configFile fl) = Ok configData /\
    json_Unmarshal_Claims w configData = Ok claims /\
    is_Some (serviceAccounts claims !! "default") /\
    fst (loadClaims fl w) = loaded_trace fl configData.
Proof.
  unfold loadClaims; unfold_proc.
  destruct (os_ReadFile w (configFile fl)) as [d|] eqn:Hr; cbn; [|done].
  destruct (json_Unmarshal_Claims w d) as [c|] eqn:Hu; cbn; [|done].
  destruct (serviceAccounts c !! "default") eqn:Hd; cbn; [|done].
  intros [= <-]. exists d. by rewrite Hd.
Qed.

Lemma loadClaims_Stop o :
  snd (loadClaims fl w) = Stop o ->
  o = Exited (-1) /\
  exists k, fatal_kind (fst (loadClaims fl w)) = Some k /\ exit_code_of k = -1.
Proof.
  run_cases; intros; simplify_eq; (split; [done|]); eauto.
Qed.

Lemma main_loaded claims :
  snd (loadClaims fl w) = Continue claims ->
  main fl w =
    ((fst (loadClaims fl w) ++ fst (resolve fl w claims ≫= serve fl w claims))%list,
     snd (resolve fl w claims ≫= serve fl w claims)).
Proof. intros H. unfold main. by rewrite (bind_Continue _ _ _ H). Qed.

Lemma main_not_loaded o :
  snd (loadClaims fl w) = Stop o ->
  main fl w = (fst (loadClaims fl w), Stop o).
Proof. intros H. unfold main. by rewrite (bind_Stop _ _ _ H). Qed.

Lemma main_resolved claims creds :
  snd (loadClaims fl w) = Continue claims ->
  snd (resolve fl w claims) = Continue creds ->
  main fl w =
    ((fst (loadClaims fl w) ++ fst (resolve fl w claims)
        ++ fst (serve fl w claims creds))%list,
     snd (serve fl w claims creds)).
Proof.
  intros Hl Hr. rewrite (main_loaded _ Hl), (bind_Continue _ _ _ Hr).
  done.
Qed.

Lemma main_not_resolved claims o :
  snd (loadClaims fl w) = Continue claims ->
  snd (resolve fl w claims) = Stop o ->
  main fl w =
    ((fst (loadClaims fl w) ++ fst (resolve fl w claims))%list, Stop o).
Proof.
  intros Hl Hr. rewrite (main_loaded _ Hl), (bind_Stop _ _ _ Hr).
  done.
Qed.

(** The chain of tests over the flags picks the branch of the
    specification's priority order. *)
Lemma resolve_branch claims :
  resolve fl w claims = branch (selected_strategy fl) fl w claims.
Proof.
  unfold resolve, selected_strategy, strategy_flags.
  by destruct (useImpersonate fl), (useFederate fl), (useTPM fl).
Qed.

Lemma serve_create_calls claims creds :
  create_calls (fst (serve fl w claims creds)) = [(serverConfig fl, creds, claims)].
Proof. run_cases; reflexivity. Qed.

Lemma resolve_create_calls claims :
  create_calls (fst (resolve fl w claims)) = [].
Proof. run_cases; reflexivity. Qed.

Lemma loadClaims_create_calls :
  create_calls (fst (loadClaims fl w)) = [].
Proof. run_cases; reflexivity. Qed.
End Stages.

(** ** The credential handed to [create] *)

(** What a branch returns when the preconditions of its strategy hold: the
    TPM branch leaves [creds] nil, every other branch sets it. *)
Lemma branch_Continue (s : Strategy) fl w claims :
  preconditions_hold s fl w claims = true ->
  exists creds,
    snd (branch s fl w claims) = Continue creds /\
    (creds = None <-> s = TPM).
Proof.
  destruct s; unfold preconditions_hold, branch; intros Hp.
  - unfold useImpersonate_branch; unfold_proc.
    destruct (impersonate_CredentialsTokenSource _ _ _) as [ts|]; [|done].
    cbn. eexists; split; [done|]. split; discriminate.
  - apply andb_true_iff in Hp as [Henv Hadc].
    unfold useFederate_branch; unfold_proc. cbn.
    apply negb_true_iff in Henv. rewrite Henv. cbn.
    destruct (google_FindDefaultCredentials _ _) as [c|]; [|done].
    cbn. eexists; split; [done|]. split; discriminate.
  - apply andb_true_iff in Hp as [Hh Hdev].
    unfold useTPM_branch; unfold_proc. cbn.
    apply negb_true_iff in Hh. rewrite Hh. cbn.
    destruct (tpm2_OpenTPM _ _) as [rwc|]; [|done]. cbn.
    destruct (rwc_Close _ _); [done|]. cbn.
    by exists None.
  - unfold serviceAccountFile_branch; unfold_proc. cbn.
    destruct (os_ReadFile _ _) as [data|]; [|done]. cbn.
    destruct (google_CredentialsFromJSON _ _ _) as [c|]; [|done]. cbn.
    destruct (json_Unmarshal_map _ _) as [m|]; [|done].
    destruct (negb _), (iface_neq_string _ _); cbn;
      (eexists; split; [done|]; split; discriminate).
Qed.

(** C1, as amended.  When the config stage succeeds and the preconditions of
    the selected strategy hold, the resolver ends without error and [create]
    is called exactly once, with the flags' ServerConfig, the resolver's
    credential and the claims.  The credential is a credential object for
    Impersonation, Federation and ServiceAccountFile; for TPM it is nil. *)
Theorem resolver_hands_one_credential fl w claims :
  snd (loadClaims fl w) = Continue claims ->
  preconditions_hold (selected_strategy fl) fl w claims = true ->
  exists creds,
    snd (resolve fl w claims) = Continue creds /\
    create_calls (trace fl w) = [(serverConfig fl, creds, claims)] /\
    (creds = None <-> selected_strategy fl = TPM).
Proof.
  intros Hl Hp.
  destruct (branch_Continue _ _ _ _ Hp) as (creds & Hb & Hnil).
  rewrite <- resolve_branch in Hb.
  exists creds. split; [done|]. split; [|done].
  unfold trace. rewrite (main_resolved _ _ _ _ Hl Hb). cbn [fst].
  unfold create_calls. rewrite !omap_app.
  fold (create_calls (fst (loadClaims fl w))).
  fold (create_calls (fst (resolve fl w claims))).
  fold (create_calls (fst (serve fl w claims creds))).
  by rewrite loadClaims_create_calls, resolve_create_calls, serve_create_calls.
Qed.

Lemma resolver_hands_one_credential_witness :
  exists creds,
    snd (resolve Sample.fileFlags Sample.world Sample.claims) = Continue creds /\
    create_calls (trace Sample.fileFlags Sample.world)
      = [(serverConfig Sample.fileFlags, creds, Sample.claims)] /\
    (creds = None <-> selected_strategy Sample.fileFlags = TPM).
Proof.
  apply (resolver_hands_one_credential Sample.fileFlags Sample.world Sample.claims).
  - vm_compute. reflexivity.
  - vm_compute. reflexivity.
Defined.

(** C1 as stated fails for TPM: with the TPM flag set, a non-zero handle and
    a reachable device, the resolver ends without error, yet the credential
    handed to [create] is nil, so no call of [create] receives a credential
    object. *)
Lemma tpm_hands_nil_credential :
  snd (loadClaims Sample.tpmFlags Sample.world) = Continue Sample.claims /\
  selected_strategy Sample.tpmFlags = TPM /\
  preconditions_hold TPM Sample.tpmFlags Sample.world Sample.claims = true /\
  snd (resolve Sample.tpmFlags Sample.world Sample.claims) = Continue None /\
  create_calls (trace Sample.tpmFlags Sample.world)
    = [(serverConfig Sample.tpmFlags, None, Sample.claims)] /\
  ~ (exists cfg c claims,
       In (cfg, Some c, claims) (create_calls (trace Sample.tpmFlags Sample.world))).
Proof.
  assert (Hc : create_calls (trace Sample.tpmFlags Sample.world)
               = [(serverConfig Sample.tpmFlags, None, Sample.claims)])
    by (vm_compute; reflexivity).
  repeat split; try (vm_compute; reflexivity); try exact Hc.
  intros (cfg & c & cl & Hin). rewrite Hc in Hin.
  destruct Hin as [Heq|[]]. discriminate Heq.
Qed.

(** ** Exit codes *)






(** ** Strategy selection *)

Lemma selected_ServiceAccountFile fl :
  selected_strategy fl = ServiceAccountFile <->
  useImpersonate fl = false /\ useFederate fl = false /\ useTPM fl = false.
Proof.
  unfold selected_strategy, strategy_flags.
  destruct (useImpersonate fl), (useFederate fl), (useTPM fl); cbn;
    intuition discriminate.
Qed.

Lemma announced_once fl w :
  announcements (trace fl w) =
    match snd (loadClaims fl w) with
    | Continue _ => [selected_strategy fl]
    | Stop _ => []
    end.
Proof.
  unfold trace, main, selected_strategy, strategy_flags.
  run_cases; reflexivity.
Qed.

Lemma strategy_events_selected fl w :
  Forall (fun e => forall s, event_strategy e = Some s -> s = selected_strategy fl)
         (trace fl w).
Proof.
  unfold trace, main, selected_strategy, strategy_flags.
  run_cases; repeat (constructor; [cbn; intros ? [= <-]; reflexivity|]);
    constructor.
Qed.

(** C3.  The chain of tests over the three flags runs the branch of the
    first active flag in the order Impersonation, Federation, TPM, and the
    ServiceAccountFile branch exactly when no flag is set.  A run announces
    one strategy, the selected one, once (none when the config stage
    fails); every event that belongs to a strategy belongs to the selected
    one; and when the selected branch fails the run ends there, with that
    branch's outcome and nothing after its events. *)
Theorem strategy_priority_no_fallback fl w :
  (selected_strategy fl = ServiceAccountFile <->
     useImpersonate fl = false /\ useFederate fl = false /\ useTPM fl = false) /\
  (forall claims,
     resolve fl w claims = branch (selected_strategy fl) fl w claims) /\
  announcements (trace fl w) =
    match snd (loadClaims fl w) with
    | Continue _ => [selected_strategy fl]
    | Stop _ => []
    end /\
  Forall (fun e => forall s, event_strategy e = Some s -> s = selected_strategy fl)
         (trace fl w) /\
  (forall claims o,
     snd (loadClaims fl w) = Continue claims ->
     snd (branch (selected_strategy fl) fl w claims) = Stop o ->
     outcome fl w = o /\
     trace fl w =
       (fst (loadClaims fl w)
          ++ fst (branch (selected_strategy fl) fl w claims))%list).
Proof.
  split; [apply selected_ServiceAccountFile|].
  split; [apply resolve_branch|].
  split; [apply announced_once|].
  split; [apply strategy_events_selected|].
  intros claims o Hl Hb. rewrite <- resolve_branch in Hb |- *.
  unfold outcome, trace. by rewrite (main_not_resolved _ _ _ _ Hl Hb).
Qed.

(** ** Configuration errors of the strategies *)

Lemma trace_not_resolved fl w claims o :
  snd (loadClaims fl w) = Continue claims ->
  snd (resolve fl w claims) = Stop o ->
  exists configData,
    trace fl w = (loaded_trace fl configData ++ fst (resolve fl w claims))%list /\
    outcome fl w = o.
Proof.
  intros Hl Hr.
  destruct (loadClaims_Continue _ _ _ Hl) as (d & _ & _ & _ & Ht).
  exists d. unfold trace, outcome.
  by rewrite (main_not_resolved _ _ _ _ Hl Hr), Ht.
Qed.

(** C4.  With the TPM strategy selected and a zero persistent handle, the
    branch logs its entry line and the error of the InvalidPersistentHandle
    site and exits with code 1; the run ends on that error and no call of
    [tpm2.OpenTPM] is made. *)
Theorem zero_handle_fails_before_device fl w claims :
  snd (loadClaims fl w) = Continue claims ->
  selected_strategy fl = TPM ->
  persistentHandle fl = 0 ->
  resolve fl w claims =
    ([ Log INFO "Using TPM based token handle" [];
       Log ERROR "persistent handle must be specified" [] ],
     Stop (Exited 1)) /\
  fatal_kind (trace fl w) = Some InvalidPersistentHandle /\
  outcome fl w = Exited 1 /\
  existsb is_OpenTPM (trace fl w) = false.
Proof.
  intros Hl Hs Hh.
  assert (Hr : resolve fl w claims =
               ([ Log INFO "Using TPM based token handle" [];
                  Log ERROR "persistent handle must be specified" [] ],
                Stop (Exited 1))).
  { rewrite resolve_branch, Hs. unfold branch, useTPM_branch.
    by rewrite Hh. }
  split; [exact Hr|].
  destruct (trace_not_resolved fl w claims (Exited 1) Hl) as (d & -> & ->);
    [by rewrite Hr|].
  by rewrite Hr.
Qed.

Lemma zero_handle_fails_before_device_witness :
  resolve Sample.tpmZeroFlags Sample.world Sample.claims =
    ([ Log INFO "Using TPM based token handle" [];
       Log ERROR "persistent handle must be specified" [] ],
     Stop (Exited 1)) /\
  fatal_kind (trace Sample.tpmZeroFlags Sample.world) = Some InvalidPersistentHandle /\
  outcome Sample.tpmZeroFlags Sample.world = Exited 1 /\
  existsb is_OpenTPM (trace Sample.tpmZeroFlags Sample.world) = false.
Proof.
  apply (zero_handle_fails_before_device
           Sample.tpmZeroFlags Sample.world Sample.claims).
  - vm_compute. reflexivity.
  - reflexivity.
  - reflexivity.
Defined.

(** C6.  With the Federation strategy selected and an empty
    GOOGLE_APPLICATION_CREDENTIALS, the branch logs its entry line, reads
    the variable, logs the error of the MissingAmbientCredentialConfig site
    and exits with code 1; the run ends on that error, and neither
    [google.FindDefaultCredentials] nor [mds.NewMetadataServer] nor [Start]
    is called. *)
Theorem federation_needs_ambient_variable fl w claims :
  snd (loadClaims fl w) = Continue claims ->
  selected_strategy fl = Federation ->
  os_Getenv w "GOOGLE_APPLICATION_CREDENTIALS" = "" ->
  resolve fl w claims =
    ([ Log INFO "Using Workload Identity Federation" [];
       Call (Getenv "GOOGLE_APPLICATION_CREDENTIALS") true;
       Log ERROR "GOOGLE_APPLICATION_CREDENTIAL must be set with --federate" [] ],
     Stop (Exited 1)) /\
  fatal_kind (trace fl w) = Some MissingAmbientCredentialConfig /\
  outcome fl w = Exited 1 /\
  existsb is_FindDefaultCredentials (trace fl w) = false /\
  create_calls (trace fl w) = [] /\
  existsb is_Start (trace fl w) = false.
Proof.
  intros Hl Hs Henv.
  assert (Hr : resolve fl w claims =
    ([ Log INFO "Using Workload Identity Federation" [];
       Call (Getenv "GOOGLE_APPLICATION_CREDENTIALS") true;
       Log ERROR "GOOGLE_APPLICATION_CREDENTIAL must be set with --federate" [] ],
     Stop (Exited 1))).
  { rewrite resolve_branch, Hs. unfold branch, useFederate_branch.
    unfold_proc. cbn. by rewrite Henv. }
  split; [exact Hr|].
  destruct (trace_not_resolved fl w claims (Exited 1) Hl) as (d & -> & ->);
    [by rewrite Hr|].
  by rewrite Hr.
Qed.

Lemma federation_needs_ambient_variable_witness :
  resolve Sample.federateFlags Sample.noEnvWorld Sample.claims =
    ([ Log INFO "Using Workload Identity Federation" [];
       Call (Getenv "GOOGLE_APPLICATION_CREDENTIALS") true;
       Log ERROR "GOOGLE_APPLICATION_CREDENTIAL must be set with --federate" [] ],
     Stop (Exited 1)) /\
  fatal_kind (trace Sample.federateFlags Sample.noEnvWorld)
    = Some MissingAmbientCredentialConfig /\
  outcome Sample.federateFlags Sample.noEnvWorld = Exited 1 /\
  existsb is_FindDefaultCredentials (trace Sample.federateFlags Sample.noEnvWorld)
    = false /\
  create_calls (trace Sample.federateFlags Sample.noEnvWorld) = [] /\
  existsb is_Start (trace Sample.federateFlags Sample.noEnvWorld) = false.
Proof.
  apply (federation_needs_ambient_variable
           Sample.federateFlags Sample.noEnvWorld Sample.claims).
  - vm_compute. reflexivity.
  - reflexivity.
  - reflexivity.
Defined.

(** ** The default service account *)

Lemma no_missing_default_after_load fl w claims :
  existsb (logs_kind MissingDefaultServiceAccount)
          (fst (resolve fl w claims ≫= serve fl w claims)) = false.
Proof. run_cases; reflexivity. Qed.

(** C7.  Once the config file is read and parsed, the presence of the
    "default" service account decides the run before any strategy starts.
    When the entry is absent the run consists of the config stage and the
    error line of that check, exits with code -1, and contains no event of
    any strategy.  When it is present the config stage succeeds, the error
    of that check is logged nowhere in the run, and the selected strategy
    is entered. *)
Theorem default_account_checked_first fl w configData claims :
  os_ReadFile w (configFile fl) = Ok configData ->
  json_Unmarshal_Claims w configData = Ok claims ->
  (serviceAccounts claims !! "default" = None ->
     trace fl w =
       (loaded_trace fl configData
          ++ [Log ERROR "default service account must be set" []])%list /\
     outcome fl w = Exited (-1) /\
     fatal_kind (trace fl w) = Some MissingDefaultServiceAccount /\
     Forall (fun e => event_strategy e = None) (trace fl w)) /\
  (is_Some (serviceAccounts claims !! "default") ->
     loadClaims fl w = (loaded_trace fl configData, Continue claims) /\
     existsb (logs_kind MissingDefaultServiceAccount) (trace fl w) = false /\
     announcements (trace fl w) = [selected_strategy fl]).
Proof.
  intros Hr Hu.
  assert (Hload : loadClaims fl w =
            match serviceAccounts claims !! "default" with
            | None =>
                ((loaded_trace fl configData
                    ++ [Log ERROR "default service account must be set" []])%list,
                 Stop (Exited (-1)))
            | Some _ => (loaded_trace fl configData, Continue claims)
            end).
  { unfold loadClaims; unfold_proc. rewrite Hr. cbn. rewrite Hu. cbn.
    by destruct (serviceAccounts claims !! "default"). }
  split.
  - intros Hd. rewrite Hd in Hload.
    unfold trace, outcome.
    rewrite (main_not_loaded fl w (Exited (-1))) by (by rewrite Hload).
    rewrite Hload. cbn [fst snd].
    repeat split; try reflexivity.
    repeat constructor.
  - intros [sa Hd]. rewrite Hd in Hload.
    split; [exact Hload|]. split.
    + unfold trace. rewrite (main_loaded fl w claims) by (by rewrite Hload).
      cbn [fst]. rewrite existsb_app, Hload, no_missing_default_after_load.
      reflexivity.
    + rewrite announced_once. by rewrite Hload.
Qed.

Lemma default_account_checked_first_witness :
  trace Sample.fileFlags Sample.noDefaultWorld =
    (loaded_trace Sample.fileFlags "config.json bytes"
       ++ [Log ERROR "default service account must be set" []])%list /\
  outcome Sample.fileFlags Sample.noDefaultWorld = Exited (-1) /\
  fatal_kind (trace Sample.fileFlags Sample.noDefaultWorld)
    = Some MissingDefaultServiceAccount /\
  Forall (fun e => event_strategy e = None)
         (trace Sample.fileFlags Sample.noDefaultWorld).
Proof.
  apply (default_account_checked_first Sample.fileFlags Sample.noDefaultWorld
           "config.json bytes" (Sample.claimsOf ∅)).
  - reflexivity.
  - reflexivity.
  - vm_compute. reflexivity.
Defined.

(** ** Lifecycle *)


(** ** The server configuration *)

Lemma create_calls_trace fl w :
  create_calls (trace fl w) = [] \/
  exists creds claims,
    create_calls (trace fl w) = [(serverConfig fl, creds, claims)].
Proof.
  unfold trace.
  destruct (snd (loadClaims fl w)) as [claims|o] eqn:Hl.
  - destruct (snd (resolve fl w claims)) as [creds|o] eqn:Hr.
    + right. exists creds, claims.
      rewrite (main_resolved _ _ _ _ Hl Hr). cbn [fst].
      unfold create_calls. rewrite !omap_app.
      fold (create_calls (fst (loadClaims fl w))).
      fold (create_calls (fst (resolve fl w claims))).
      fold (create_calls (fst (serve fl w claims creds))).
      by rewrite loadClaims_create_calls, resolve_create_calls,
        serve_create_calls.
    + left. rewrite (main_not_resolved _ _ _ _ Hl Hr). cbn [fst].
      unfold create_calls. rewrite omap_app.
      fold (create_calls (fst (loadClaims fl w))).
      fold (create_calls (fst (resolve fl w claims))).
      by rewrite loadClaims_create_calls, resolve_create_calls.
  - left. rewrite (main_not_loaded _ _ _ Hl). apply loadClaims_create_calls.
Qed.

Lemma started_handles_created fl w :
  started_handles (trace fl w) = [] \/
  exists creds claims f,
    mds_NewMetadataServer w (serverConfig fl) creds claims = Ok f /\
    started_handles (trace fl w) = [f].
Proof.
  unfold trace, main. run_cases;
    solve [ by left | right; eauto ].
Qed.

Lemma serverConfig_carries_flags fl : carries_flags (serverConfig fl) fl.
Proof. by repeat split. Qed.

(** C9.  Every ServerConfig passed to [create] carries the eight settings
    of the flags unchanged: bind interface, port, domain socket, the three
    strategy flags, TPM path and persistent handle.  When [create] keeps the
    settings it is given, the handle on which [Start] is called shows those
    same settings. *)
Theorem serverConfig_round_trip fl w :
  (forall cfg creds claims,
     In (cfg, creds, claims) (create_calls (trace fl w)) ->
     carries_flags cfg fl) /\
  (create_keeps_settings w ->
   forall f, In f (started_handles (trace fl w)) ->
     carries_flags (mds.settings f) fl).
Proof.
  split.
  - intros cfg creds claims Hin.
    destruct (create_calls_trace fl w) as [H|(c & cl & H)];
      rewrite H in Hin; [destruct Hin|].
    destruct Hin as [[= <- _ _]|[]]. apply serverConfig_carries_flags.
  - intros Hkeep f Hin.
    destruct (started_handles_created fl w) as [H|(c & cl & f' & Hc & H)];
      rewrite H in Hin; [destruct Hin|].
    destruct Hin as [<-|[]].
    rewrite (Hkeep _ _ _ _ Hc). apply serverConfig_carries_flags.
Qed.

(** On the sample run: the sample server keeps the settings it is given,
    [create] receives the sample flags' settings, and [Start] is called on a
    handle that shows them. *)
Lemma serverConfig_round_trip_witness :
  carries_flags (serverConfig Sample.fileFlags) Sample.fileFlags /\
  carries_flags (mds.settings (Sample.server (serverConfig Sample.fileFlags)))
    Sample.fileFlags.
Proof.
  split.
  - apply (proj1 (serverConfig_round_trip Sample.fileFlags Sample.world)
             _ (Some Sample.keyCreds) Sample.claims).
    vm_compute. left. reflexivity.
  - apply (proj2 (serverConfig_round_trip Sample.fileFlags Sample.world)).
    + intros cfg creds claims f [= <-]. reflexivity.
    + vm_compute. left. reflexivity.
Defined.

(** ** The validator of the ServiceAccountFile strategy *)

Lemma iface_neq_string_spec v s :
  iface_neq_string v s = true <-> v <> JString s.
Proof.
  destruct v; cbn; try (split; [discriminate|done]).
  rewrite negb_true_iff, String.eqb_neq. split; congruence.
Qed.

Lemma serve_warnings fl w claims creds :
  warnings (fst (serve fl w claims creds)) = [].
Proof. run_cases; reflexivity. Qed.

Section KeyFile.
Variables (fl : Flags) (w : World) (claims : mds.Claims).
Variables (data : bytes) (creds : google.Credentials).
Variable credJsonMap : gmap string JSONValue.

Hypothesis loaded : snd (loadClaims fl w) = Continue claims.
Hypothesis selected : selected_strategy fl = ServiceAccountFile.
Hypothesis readable : os_ReadFile w (serviceAccountFile fl) = Ok data.
Hypothesis parsed :
  google_CredentialsFromJSON w data (mds.Scopes (default_sa claims)) = Ok creds.
Hypothesis decoded : json_Unmarshal_map w (google.JSON creds) = Ok credJsonMap.

(** The events of the branch on a readable, well-formed key file. *)
Lemma keyfile_resolve :
  resolve fl w claims =
    (([ Log INFO "Using serviceAccountFile for credentials" [];
        Call (ReadFile (serviceAccountFile fl)) true;
        Call (CredentialsFromJSON data (mds.Scopes (default_sa claims))) true ]
      ++ (if negb (String.eqb (google.ProjectID creds) (claimedProjectID claims))
          then [ Log WARNING projectID_warning
                   [AStr (claimedProjectID claims); AStr (google.ProjectID creds)] ]
          else [])
      ++ [ Call (UnmarshalMap (google.JSON creds)) true ]
      ++ (if iface_neq_string (map_index credJsonMap "client_email")
               (mds.Email (default_sa claims))
          then [ Log WARNING email_warning
                   [ AStr (mds.Email (default_sa claims));
                     AIface (map_index credJsonMap "client_email") ] ]
          else []))%list,
     Continue (Some creds)).
Proof.
  rewrite resolve_branch, selected.
  unfold branch, serviceAccountFile_branch; unfold_proc.
  rewrite readable. cbn. rewrite parsed. cbn.
  destruct (negb _); cbn; rewrite decoded; cbn;
    by destruct (iface_neq_string _ _).
Qed.

Lemma keyfile_warnings :
  warnings (trace fl w) =
    ((if negb (String.eqb (google.ProjectID creds) (claimedProjectID claims))
      then [projectID_warning] else [])
     ++ (if iface_neq_string (map_index credJsonMap "client_email")
              (mds.Email (default_sa claims))
         then [email_warning] else []))%list.
Proof.
  assert (Hr : snd (resolve fl w claims) = Continue (Some creds))
    by (by rewrite keyfile_resolve).
  destruct (loadClaims_Continue _ _ _ loaded) as (d & _ & _ & _ & Ht).
  unfold trace. rewrite (main_resolved _ _ _ _ loaded Hr). cbn [fst].
  unfold warnings. rewrite !omap_app.
  fold (warnings (fst (serve fl w claims (Some creds)))).
  rewrite serve_warnings, Ht, keyfile_resolve. cbn [fst].
  rewrite !omap_app.
  destruct (negb _), (iface_neq_string _ _); reflexivity.
Qed.

Lemma keyfile_proceeds :
  snd (resolve fl w claims) = Continue (Some creds) /\
  create_calls (trace fl w) = [(serverConfig fl, Some creds, claims)].
Proof.
  assert (Hr : snd (resolve fl w claims) = Continue (Some creds))
    by (by rewrite keyfile_resolve).
  split; [exact Hr|].
  unfold trace. rewrite (main_resolved _ _ _ _ loaded Hr). cbn [fst].
  unfold create_calls. rewrite !omap_app.
  fold (create_calls (fst (loadClaims fl w))).
  fold (create_calls (fst (resolve fl w claims))).
  fold (create_calls (fst (serve fl w claims (Some creds)))).
  by rewrite loadClaims_create_calls, resolve_create_calls,
    serve_create_calls.
Qed.
End KeyFile.

(** C5.  Under the ServiceAccountFile strategy, on a key file that is read,
    parsed and decoded: the project warning is logged exactly when the
    credential's project id differs from the claimed one; the email warning
    is logged exactly when the decoded client_email differs from the claimed
    default email; no warning is logged twice; and in every case the
    resolver returns the credential and the run goes on to call [create]
    with it. *)
Theorem validator_warns_exactly_on_mismatch fl w claims data creds credJsonMap :
  snd (loadClaims fl w) = Continue claims ->
  selected_strategy fl = ServiceAccountFile ->
  os_ReadFile w (serviceAccountFile fl) = Ok data ->
  google_CredentialsFromJSON w data (mds.Scopes (default_sa claims)) = Ok creds ->
  json_Unmarshal_map w (google.JSON creds) = Ok credJsonMap ->
  (In projectID_warning (warnings (trace fl w)) <->
     google.ProjectID creds <> claimedProjectID claims) /\
  (In email_warning (warnings (trace fl w)) <->
     map_index credJsonMap "client_email"
       <> JString (mds.Email (default_sa claims))) /\
  NoDup (warnings (trace fl w)) /\
  snd (resolve fl w claims) = Continue (Some creds) /\
  create_calls (trace fl w) = [(serverConfig fl, Some creds, claims)].
Proof.
  intros Hl Hs Hr Hp Hd.
  rewrite (keyfile_warnings _ _ _ _ _ _ Hl Hs Hr Hp Hd).
  rewrite <- iface_neq_string_spec, <- String.eqb_neq, <- negb_true_iff.
  assert (Hne : projectID_warning <> email_warning) by discriminate.
  split; [|split; [|split]].
  - destruct (negb _), (iface_neq_string _ _); cbn; intuition congruence.
  - destruct (negb _), (iface_neq_string _ _); cbn; intuition congruence.
  - destruct (negb _), (iface_neq_string _ _); cbn [app];
      repeat first [ apply NoDup_cons_2 | apply NoDup_nil_2
                   | apply not_elem_of_nil
                   | apply not_elem_of_cons; split; [exact Hne|] ].
  - exact (keyfile_proceeds _ _ _ _ _ _ Hl Hs Hr Hp Hd).
Qed.

(** The specification's scenario: the key file names "other@proj.iam", the
    claims "svc@proj.iam", the project ids agree. *)
Lemma validator_warns_exactly_on_mismatch_witness :
  (In projectID_warning (warnings (trace Sample.fileFlags Sample.otherEmailWorld)) <->
     google.ProjectID Sample.keyCreds <> claimedProjectID Sample.claims) /\
  (In email_warning (warnings (trace Sample.fileFlags Sample.otherEmailWorld)) <->
     map_index (Sample.keyMap "other@proj.iam") "client_email"
       <> JString (mds.Email (default_sa Sample.claims))) /\
  NoDup (warnings (trace Sample.fileFlags Sample.otherEmailWorld)) /\
  snd (resolve Sample.fileFlags Sample.otherEmailWorld Sample.claims)
    = Continue (Some Sample.keyCreds) /\
  create_calls (trace Sample.fileFlags Sample.otherEmailWorld)
    = [(serverConfig Sample.fileFlags, Some Sample.keyCreds, Sample.claims)].
Proof.
  apply (validator_warns_exactly_on_mismatch Sample.fileFlags
           Sample.otherEmailWorld Sample.claims "key.json bytes"
           Sample.keyCreds (Sample.keyMap "other@proj.iam")).
  - vm_compute. reflexivity.
  - reflexivity.
  - reflexivity.
  - reflexivity.
  - reflexivity.
Defined.

(** C10.  Under the ServiceAccountFile strategy, when the decoded key file
    has no client_email: the lookup yields the nil interface, which differs
    from every claimed email, so the email warning is logged, once, with
    nil as the email read; it is the only warning when the project ids
    agree; and the resolver returns the credential and the run goes on to
    call [create] with it. *)
Theorem missing_client_email_only_warns fl w claims data creds credJsonMap :
  snd (loadClaims fl w) = Continue claims ->
  selected_strategy fl = ServiceAccountFile ->
  os_ReadFile w (serviceAccountFile fl) = Ok data ->
  google_CredentialsFromJSON w data (mds.Scopes (default_sa claims)) = Ok creds ->
  json_Unmarshal_map w (google.JSON creds) = Ok credJsonMap ->
  credJsonMap !! "client_email" = None ->
  iface_neq_string (map_index credJsonMap "client_email")
    (mds.Email (default_sa claims)) = true /\
  length (List.filter (String.eqb email_warning) (warnings (trace fl w))) = 1%nat /\
  (google.ProjectID creds = claimedProjectID claims ->
     warnings (trace fl w) = [email_warning]) /\
  In (Log WARNING email_warning
        [AStr (mds.Email (default_sa claims)); AIface JNull])
     (fst (resolve fl w claims)) /\
  snd (resolve fl w claims) = Continue (Some creds) /\
  create_calls (trace fl w) = [(serverConfig fl, Some creds, claims)].
Proof.
  intros Hl Hs Hr Hp Hd Hnone.
  assert (Hnil : map_index credJsonMap "client_email" = JNull)
    by (unfold map_index; by rewrite Hnone).
  split; [by rewrite Hnil|].
  pose proof (keyfile_proceeds _ _ _ _ _ _ Hl Hs Hr Hp Hd) as Hgo.
  rewrite (keyfile_warnings _ _ _ _ _ _ Hl Hs Hr Hp Hd).
  rewrite (keyfile_resolve _ _ _ _ _ _ Hs Hr Hp Hd), Hnil in *.
  cbn [iface_neq_string fst snd] in *.
  split; [|split; [|split]].
  - by destruct (negb _).
  - intros ->. by rewrite String.eqb_refl.
  - rewrite !in_app_iff. right. right. right. by left.
  - done.
Qed.

Lemma missing_client_email_only_warns_witness :
  iface_neq_string
    (map_index ({[ "project_id" := JString "proj" ]} : gmap string JSONValue)
       "client_email")
    (mds.Email (default_sa Sample.claims)) = true /\
  length (List.filter (String.eqb email_warning)
            (warnings (trace Sample.fileFlags Sample.noEmailWorld))) = 1%nat /\
  (google.ProjectID Sample.keyCreds = claimedProjectID Sample.claims ->
     warnings (trace Sample.fileFlags Sample.noEmailWorld) = [email_warning]) /\
  In (Log WARNING email_warning
        [AStr (mds.Email (default_sa Sample.claims)); AIface JNull])
     (fst (resolve Sample.fileFlags Sample.noEmailWorld Sample.claims)) /\
  snd (resolve Sample.fileFlags Sample.noEmailWorld Sample.claims)
    = Continue (Some Sample.keyCreds) /\
  create_calls (trace Sample.fileFlags Sample.noEmailWorld)
    = [(serverConfig Sample.fileFlags, Some Sample.keyCreds, Sample.claims)].
Proof.
  apply (missing_client_email_only_warns Sample.fileFlags Sample.noEmailWorld
           Sample.claims "key.json bytes" Sample.keyCreds
           {[ "project_id" := JString "proj" ]}).
  - vm_compute. reflexivity.
  - reflexivity.
  - reflexivity.
  - reflexivity.
  - reflexivity.
  - vm_compute. reflexivity.
Defined.

(** * Further properties of [main] *)

(** ** Warnings *)

(** X1.  Only the ServiceAccountFile branch compares the credential with
    the claims: under every other strategy no warning is logged, whatever
    the collaborators answer. *)
Theorem no_warning_without_key_file fl w :
  selected_strategy fl <> ServiceAccountFile ->
  warnings (trace fl w) = [].
Proof.
  unfold trace, main, selected_strategy, strategy_flags. intros Hsel.
  run_cases; solve [reflexivity | by cbn in Hsel].
Qed.

Lemma no_warning_without_key_file_witness :
  warnings (trace Sample.tpmFlags Sample.otherEmailWorld) = [].
Proof.
  apply (no_warning_without_key_file Sample.tpmFlags Sample.otherEmailWorld).
  vm_compute. discriminate.
Defined.

(** ** Errors *)


(** X3.  Every failed call is fatal and reported by its own message.  A run
    that does not end on an error has no failed call.  A run that ends on
    an error has exactly one failed call, the one the error names, with the
    path of the flag concerned for [os.ReadFile] and [tpm2.OpenTPM]; or it
    has none, and the error is one of the three tests [main] makes itself
    (default service account, ambient-credential variable, persistent
    handle). *)
Theorem failed_call_is_reported fl w :
  match fatal_kind (trace fl w), failed_calls (trace fl w) with
  | None, [] => True
  | Some k, [] => check_kind k
  | Some k, [c] => blames fl k c
  | _, _ => False
  end.
Proof.
  unfold trace, main, check_kind. run_cases;
    first [ exact I | reflexivity
          | left; reflexivity
          | right; left; reflexivity
          | right; right; reflexivity ].
Qed.

(** ** What [create] receives *)

Lemma branch_resolved_by s fl w claims creds :
  snd (branch s fl w claims) = Continue creds ->
  resolved_by s fl w claims creds.
Proof.
  destruct s; unfold branch, resolved_by.
  - unfold useImpersonate_branch; unfold_proc.
    destruct (impersonate_CredentialsTokenSource _ _ _) as [ts|]; cbn;
      [|discriminate].
    intros [= <-]. by exists ts.
  - unfold useFederate_branch; unfold_proc. cbn.
    destruct (String.eqb _ _); cbn; [discriminate|].
    destruct (google_FindDefaultCredentials _ _) as [c|]; cbn; [|discriminate].
    intros [= <-]. by exists c.
  - unfold useTPM_branch; unfold_proc. cbn.
    destruct (persistentHandle fl =? 0)%Z; cbn; [discriminate|].
    destruct (tpm2_OpenTPM _ _) as [rwc|]; cbn; [|discriminate].
    destruct (rwc_Close _ _); cbn; [discriminate|]. by intros [= <-].
  - unfold serviceAccountFile_branch; unfold_proc. cbn.
    destruct (os_ReadFile _ _) as [data|]; cbn; [|discriminate].
    destruct (google_CredentialsFromJSON _ _ _) as [c|] eqn:Hc; cbn;
      [|discriminate].
    destruct (json_Unmarshal_map _ _) as [m|];
      destruct (negb _); cbn; try discriminate;
      destruct (iface_neq_string _ _); cbn; intros [= <-];
      by exists data, c.
Qed.

(** X4.  Whenever [create] is called, its claims are those the config file
    parsed to and its credential is what the selected strategy obtained,
    passed on unchanged: for Impersonation a credential holding only the
    token source returned for the default account's email and scopes; for
    Federation the credential [google.FindDefaultCredentials] returned for
    the default scopes; for ServiceAccountFile the credential
    [google.CredentialsFromJSON] returned for the bytes of the key file and
    the default scopes; for TPM nil. *)
Theorem create_receives_resolved_credential fl w cfg creds claims :
  In (cfg, creds, claims) (create_calls (trace fl w)) ->
  (exists configData,
     os_ReadFile w (configFile fl) = Ok configData /\
     json_Unmarshal_Claims w configData = Ok claims) /\
  resolved_by (selected_strategy fl) fl w claims creds.
Proof.
  unfold trace. intros Hin.
  destruct (snd (loadClaims fl w)) as [claims0|o] eqn:Hl.
  - destruct (snd (resolve fl w claims0)) as [creds0|o] eqn:Hr.
    + rewrite (main_resolved _ _ _ _ Hl Hr) in Hin. cbn [fst] in Hin.
      unfold create_calls in Hin. rewrite !omap_app in Hin.
      fold (create_calls (fst (loadClaims fl w))) in Hin.
      fold (create_calls (fst (resolve fl w claims0))) in Hin.
      fold (create_calls (fst (serve fl w claims0 creds0))) in Hin.
      rewrite loadClaims_create_calls, resolve_create_calls,
        serve_create_calls in Hin.
      destruct Hin as [[= <- <- <-]|[]].
      destruct (loadClaims_Continue _ _ _ Hl) as (d & Hd & Hu & _ & _).
      split; [by exists d|].
      apply branch_resolved_by. by rewrite <- resolve_branch.
    + rewrite (main_not_resolved _ _ _ _ Hl Hr) in Hin. cbn [fst] in Hin.
      unfold create_calls in Hin. rewrite omap_app in Hin.
      fold (create_calls (fst (loadClaims fl w))) in Hin.
      fold (create_calls (fst (resolve fl w claims0))) in Hin.
      rewrite loadClaims_create_calls, resolve_create_calls in Hin.
      destruct Hin.
  - rewrite (main_not_loaded _ _ _ Hl) in Hin. cbn [fst] in Hin.
    rewrite loadClaims_create_calls in Hin. destruct Hin.
Qed.

Lemma create_receives_resolved_credential_witness :
  (exists configData,
     os_ReadFile Sample.world (configFile Sample.fileFlags) = Ok configData /\
     json_Unmarshal_Claims Sample.world configData = Ok Sample.claims) /\
  resolved_by (selected_strategy Sample.fileFlags) Sample.fileFlags Sample.world
    Sample.claims (Some Sample.keyCreds).
Proof.
  apply (create_receives_resolved_credential Sample.fileFlags Sample.world
           (serverConfig Sample.fileFlags)).
  vm_compute. left. reflexivity.
Defined.

(** ** Lifecycle order *)

(** X5.  The signal channel is registered for interrupt, SIGINT and SIGTERM
    exactly when [create] succeeded, at most once, and [Start] is called
    exactly in those runs, at most once, and never before the
    registration. *)
Theorem signals_registered_before_start fl w :
  existsb is_Notify (trace fl w) = existsb is_create_ok (trace fl w) /\
  existsb is_Start (trace fl w) = existsb is_Notify (trace fl w) /\
  (length (List.filter is_Notify (trace fl w)) <= 1)%nat /\
  (length (List.filter is_Start (trace fl w)) <= 1)%nat /\
  existsb is_Start (before_first is_Notify (trace fl w)) = false /\
  existsb is_Notify (before_first is_create_ok (trace fl w)) = false.
Proof.
  unfold trace, main. run_cases; repeat split; cbn; solve [reflexivity | lia].
Qed.

(** X6.  The wait for the signal.  The process never ends exactly when
    [Start] succeeded and no signal is ever delivered; in such a run
    [Shutdown] is not called and no error is logged.  A signal is received
    exactly when [Start] succeeded and a signal is delivered, at most once,
    and never before [Start] succeeded: a failed [Start] exits without
    waiting. *)
Theorem waits_for_signal_after_start fl w :
  (outcome fl w = Blocked <->
     done_signal w = None /\ existsb is_Start_ok (trace fl w) = true) /\
  (outcome fl w = Blocked ->
     shutdown_invoked (trace fl w) = false /\
     existsb is_error_line (trace fl w) = false) /\
  (existsb is_Received (trace fl w) = true <->
     is_Some (done_signal w) /\ existsb is_Start_ok (trace fl w) = true) /\
  (length (List.filter is_Received (trace fl w)) <= 1)%nat /\
  existsb is_Received (before_first is_Start_ok (trace fl w)) = false.
Proof.
  unfold trace, outcome, main. run_cases;
    repeat split; cbn; intros;
    repeat match goal with
           | H : _ /\ _ |- _ => destruct H
           | H : is_Some None |- _ => destruct H as [? [=]]
           end;
    solve [ reflexivity | lia | discriminate | congruence | by eexists ].
Qed.

(** ** The flags a strategy does not use *)

(** X7.  The key file is only looked at by the ServiceAccountFile branch:
    under every other strategy the whole run, events and outcome, is the
    same whatever [-serviceAccountFile] names. *)
Theorem key_file_flag_unused fl w name :
  selected_strategy fl <> ServiceAccountFile ->
  main (with_serviceAccountFile fl name) w = main fl w.
Proof.
  unfold selected_strategy, strategy_flags, main, resolve. cbn.
  intros Hsel.
  destruct (useImpersonate fl), (useFederate fl), (useTPM fl);
    solve [reflexivity | by cbn in Hsel].
Qed.

Lemma key_file_flag_unused_witness :
  main (with_serviceAccountFile Sample.tpmFlags "elsewhere.json") Sample.world
    = main Sample.tpmFlags Sample.world.
Proof.
  apply (key_file_flag_unused Sample.tpmFlags Sample.world "elsewhere.json").
  vm_compute. discriminate.
Defined.

(** ** The TPM device *)

(** X8.  The TPM device is only probed.  [tpm2.OpenTPM] is called at most
    once, on the path of [-tpm-path]; [Close] is called on exactly the
    devices that were opened, so a device that was opened is closed again,
    also when the run then fails; and neither call comes after [create]. *)
Theorem tpm_device_opened_is_closed fl w :
  (opened_paths (trace fl w) = [] \/
   opened_paths (trace fl w) = [tpmPath fl]) /\
  closed_devices (trace fl w) = opened_devices w (trace fl w) /\
  existsb is_OpenTPM (after_first is_create (trace fl w)) = false /\
  existsb is_Close (after_first is_create (trace fl w)) = false.
Proof.
  unfold trace, main. run_cases; simplify_eq;
    (split; [first [by left | by right]|]);
    unfold opened_devices; cbn;
    repeat match goal with
           | H : tpm2_OpenTPM _ _ = _ |- _ => rewrite H
           end;
    repeat split; reflexivity.
Qed.

(** ** Failure of the second decoding of the key file *)

(** X9.  Under the ServiceAccountFile strategy, when the key file was read
    and parsed into a credential but decoding its bytes into a map fails,
    the process exits with code 1 on the error of that site, carrying the
    decoder's error; the credential is dropped and [create] is never
    called; the email is not compared; the project warning has already been
    logged if the project ids differ. *)
Theorem descriptor_decode_failure_is_fatal fl w claims data creds err :
  snd (loadClaims fl w) = Continue claims ->
  selected_strategy fl = ServiceAccountFile ->
  os_ReadFile w (serviceAccountFile fl) = Ok data ->
  google_CredentialsFromJSON w data (mds.Scopes (default_sa claims)) = Ok creds ->
  json_Unmarshal_map w (google.JSON creds) = Fail err ->
  last (trace fl w)
    = Some (Log ERROR "Unable to parse serviceAccountFile as json %v " [AErr err]) /\
  fatal_kind (trace fl w) = Some DescriptorParseFailed /\
  outcome fl w = Exited 1 /\
  create_calls (trace fl w) = [] /\
  warnings (trace fl w)
    = (if String.eqb (google.ProjectID creds) (claimedProjectID claims)
       then [] else [projectID_warning]).
Proof.
  intros Hl Hs Hr Hp Hd.
  assert (Hres : resolve fl w claims =
    (([ Log INFO "Using serviceAccountFile for credentials" [];
        Call (ReadFile (serviceAccountFile fl)) true;
        Call (CredentialsFromJSON data (mds.Scopes (default_sa claims))) true ]
      ++ (if String.eqb (google.ProjectID creds) (claimedProjectID claims)
          then []
          else [ Log WARNING projectID_warning
                   [AStr (claimedProjectID claims); AStr (google.ProjectID creds)] ])
      ++ [ Call (UnmarshalMap (google.JSON creds)) false;
           Log ERROR "Unable to parse serviceAccountFile as json %v " [AErr err] ])%list,
     Stop (Exited 1))).
  { rewrite resolve_branch, Hs.
    unfold branch, serviceAccountFile_branch; unfold_proc.
    rewrite Hr. cbn. rewrite Hp. cbn.
    destruct (String.eqb _ _); cbn; by rewrite Hd. }
  destruct (trace_not_resolved fl w claims (Exited 1) Hl) as (d & -> & ->);
    [by rewrite Hres|].
  rewrite Hres. cbn [fst].
  destruct (String.eqb _ _); repeat split; reflexivity.
Qed.

Lemma descriptor_decode_failure_is_fatal_witness :
  last (trace Sample.fileFlags Failing.undecodableWorld)
    = Some (Log ERROR "Unable to parse serviceAccountFile as json %v "
              [AErr "unexpected end of JSON input"]) /\
  fatal_kind (trace Sample.fileFlags Failing.undecodableWorld)
    = Some DescriptorParseFailed /\
  outcome Sample.fileFlags Failing.undecodableWorld = Exited 1 /\
  create_calls (trace Sample.fileFlags Failing.undecodableWorld) = [] /\
  warnings (trace Sample.fileFlags Failing.undecodableWorld)
    = (if String.eqb (google.ProjectID Sample.keyCreds)
            (claimedProjectID Sample.claims)
       then [] else [projectID_warning]).
Proof.
  apply (descriptor_decode_failure_is_fatal Sample.fileFlags
           Failing.undecodableWorld Sample.claims "key.json bytes"
           Sample.keyCreds "unexpected end of JSON input").
  - vm_compute. reflexivity.
  - reflexivity.
  - reflexivity.
  - reflexivity.
  - reflexivity.
Defined.

(** ** The tests of a strategy *)

(** X10.  A strategy's errors only occur under that strategy.  When a run
    ends on an error of a strategy's branch, that strategy is the selected
    one; in particular a zero persistent handle is an error only when TPM
    is selected, and an empty GOOGLE_APPLICATION_CREDENTIALS only when
    Federation is, and then the handle is zero, respectively the variable
    empty. *)
Theorem strategy_errors_only_when_selected fl w :
  match fatal_kind (trace fl w) with
  | Some k =>
      match kind_strategy k with
      | Some s => s = selected_strategy fl
      | None => True
      end
  | None => True
  end /\
  (fatal_kind (trace fl w) = Some InvalidPersistentHandle ->
     persistentHandle fl = 0) /\
  (fatal_kind (trace fl w) = Some MissingAmbientCredentialConfig ->
     os_Getenv w "GOOGLE_APPLICATION_CREDENTIALS" = "").
Proof.
  unfold trace, main, selected_strategy, strategy_flags. run_cases;
    (split; [first [exact I | reflexivity]|]);
    (split; intros Hk;
       first [ discriminate Hk
             | by apply Z.eqb_eq
             | by apply String.eqb_eq ]).
Qed.

(** ** The server handle *)

(** X11.  The lifecycle calls go to the server [create] returned: when
    [Start] is called, it is called once, on the handle that [create]
    returned for the flags' ServerConfig, and [Shutdown] is called on no
    other handle. *)
Theorem lifecycle_on_created_handle fl w :
  (started_handles (trace fl w) = [] /\ shutdown_handles (trace fl w) = []) \/
  (exists creds claims f,
     mds_NewMetadataServer w (serverConfig fl) creds claims = Ok f /\
     started_handles (trace fl w) = [f] /\
     (shutdown_handles (trace fl w) = [] \/
      shutdown_handles (trace fl w) = [f])).
Proof.
  unfold trace, main. run_cases;
    first [ by left
          | right; do 3 eexists; split; [eassumption|];
            split; [reflexivity|]; first [by left | by right] ].
Qed.
